(** * EIP-1153 bytecode scanner: a shallow embedding of [eip1153_scanner.py]

    The scanner fetches the deployed code of a contract, renders it as hex
    text and counts the occurrences of the texts ["5d"] (TSTORE) and ["5c"]
    (TLOAD) in it.  This file embeds the methods of [EIP1153Scanner] and the
    batch branch of [main], and states what they compute.

    Conventions of the embedding:
    - a Python [str] is a [string], a [bytes] value a [list byte];
    - a call either returns or raises: [PyException + A];
    - the RPC endpoint and the file written by [export_results] are threaded
      through explicitly as a [World];
    - console output ([print]) is not modelled. *)

From Stdlib Require Import Strings.String Strings.Ascii Strings.Byte List Arith Bool ZArith QArith Lia.
Import ListNotations.

Local Open Scope string_scope.
Local Open Scope list_scope.
Local Open Scope nat_scope.

(** ** Python string and bytes primitives used by the scanner *)

Module PyStr.

(** [s.startswith(p)] *)
Definition startswith (s p : string) : bool := String.prefix p s.

(** [s[n:]] *)
Fixpoint slice_from (n : nat) (s : string) : string :=
  match n, s with
  | O, _ => s
  | S k, String _ t => slice_from k t
  | S _, EmptyString => EmptyString
  end.

(** [s.count(sub)]: the number of non-overlapping occurrences of [sub] in
    [s], found left to right.  [skip] is the number of characters of the
    last match still to be stepped over; the search proper is [count]. *)
Fixpoint count_skipping (sub s : string) (skip : nat) : nat :=
  match s with
  | EmptyString => match sub with EmptyString => 1 | String _ _ => 0 end
  | String _ t =>
      match skip with
      | S k => count_skipping sub t k
      | O =>
          if String.prefix sub s
          then S (count_skipping sub t (String.length sub - 1))
          else count_skipping sub t 0
      end
  end.

Definition count (s sub : string) : nat := count_skipping sub s 0.

(** [len(s)] *)
Definition len (s : string) : nat := String.length s.

End PyStr.

Module PyBytes.

Definition hex_digit (n : nat) : ascii :=
  match n with
  | 0 => "0" | 1 => "1" | 2 => "2" | 3 => "3" | 4 => "4" | 5 => "5"
  | 6 => "6" | 7 => "7" | 8 => "8" | 9 => "9" | 10 => "a" | 11 => "b"
  | 12 => "c" | 13 => "d" | 14 => "e" | _ => "f"
  end%char.

Definition byte_hex (b : byte) : string :=
  let n := Byte.to_nat b in
  String (hex_digit (n / 16)) (String (hex_digit (n mod 16)) EmptyString).

(** [bytes.hex()]: two lower-case hex digits per byte, no prefix. *)
Fixpoint hex (bs : list byte) : string :=
  match bs with
  | [] => EmptyString
  | b :: rest => byte_hex b ++ hex rest
  end.

End PyBytes.

(** ** Exceptions *)

(** An instance of [Exception], the class the handler of
    [analyze_contract] names, with its class name and its message. *)
Record PyException : Type := mkException {
  exc_class : string;
  exc_message : string
}.

(** [str(e)] *)
Definition str_of_exception (e : PyException) : string := exc_message e.

Definition ZeroDivisionError : PyException :=
  mkException "ZeroDivisionError" "division by zero".

(** The outcome of a call without side effects. *)
Definition outcome (A : Type) : Type := (PyException + A)%type.

(** ** The scan *)

(** The dictionary returned by [scan_for_opcodes]. *)
Record OpcodeCounts : Type := mkCounts {
  tstore : nat;
  tload : nat;
  total_eip1153 : nat
}.

Definition TSTORE_OPCODE : string := "5d".
Definition TLOAD_OPCODE : string := "5c".

(** The text the scan counts in: [bytecode[2:]] when [bytecode] starts with
    ["0x"], [bytecode] itself otherwise. *)
Definition strip_0x (bytecode : string) : string :=
  if PyStr.startswith bytecode "0x" then PyStr.slice_from 2 bytecode
  else bytecode.

Definition scan_for_opcodes (bytecode : string) : outcome OpcodeCounts :=
  let bytecode := strip_0x bytecode in
  let tstore_count := PyStr.count bytecode TSTORE_OPCODE in
  let tload_count := PyStr.count bytecode TLOAD_OPCODE in
  inr {| tstore := tstore_count;
         tload := tload_count;
         total_eip1153 := tstore_count + tload_count |}.

(** ** Analysis results *)

(** The two dictionaries [analyze_contract] builds: the one of the [except]
    branch has the keys [address], [error], [success]; the other one the six
    keys of [result]. *)
Inductive AnalysisResult : Type :=
| Failed (address error : string)
| Analyzed (address : string) (bytecode_size tstore_count tload_count : nat)
           (uses_eip1153 : bool).

(** [r['address']] *)
Definition result_address (r : AnalysisResult) : string :=
  match r with
  | Failed address _ => address
  | Analyzed address _ _ _ _ => address
  end.

(** [r['success']] *)
Definition success (r : AnalysisResult) : bool :=
  match r with
  | Failed _ _ => false
  | Analyzed _ _ _ _ _ => true
  end.

(** [r.get('error')] *)
Definition get_error (r : AnalysisResult) : option string :=
  match r with
  | Failed _ error => Some error
  | Analyzed _ _ _ _ _ => None
  end.

(** [r.get('uses_eip1153', False)] *)
Definition get_uses_eip1153 (r : AnalysisResult) : bool :=
  match r with
  | Failed _ _ => false
  | Analyzed _ _ _ _ uses => uses
  end.

(** [r.get('bytecode_size')], [r.get('tstore_count')], [r.get('tload_count')] *)
Definition get_bytecode_size (r : AnalysisResult) : option nat :=
  match r with
  | Failed _ _ => None
  | Analyzed _ size _ _ _ => Some size
  end.

Definition get_tstore_count (r : AnalysisResult) : option nat :=
  match r with
  | Failed _ _ => None
  | Analyzed _ _ n _ _ => Some n
  end.

Definition get_tload_count (r : AnalysisResult) : option nat :=
  match r with
  | Failed _ _ => None
  | Analyzed _ _ _ n _ => Some n
  end.

(** ** The scanner over an RPC endpoint *)

(** What the batch branch of [main] prints as its summary. *)
Record BatchSummary : Type := mkSummary {
  total : Z;
  with_eip1153 : Z;
  without_eip1153 : Z;
  adoption_rate : Q
}.

(** [a / b] on integers: raises on a zero divisor.  The quotient is kept
    exact; the rounding to a float is not modelled, and no fact below is
    about the value of the quotient. *)
Definition truediv (a b : Z) : outcome Q :=
  if (b =? 0)%Z then inl ZeroDivisionError
  else inr (Qmake a 1 / Qmake b 1)%Q.

Section Scanner.

(** The state of the endpoint behind [self.w3]. *)
Variable Node : Type.

(** [Web3.to_checksum_address]: raises on a text that is not an address. *)
Variable to_checksum_address : string -> outcome string.

(** [self.w3.eth.get_code]: the deployed code, or a failed request. *)
Variable get_code : string -> Node -> outcome (list byte) * Node.

(** [HexBytes.hex()] puts ["0x"] before the digits in hexbytes releases
    before 1.0 and leaves it out since; the flag says which one runs. *)
Variable hexbytes_0x : bool.

Record World : Type := mkWorld {
  node : Node;
  files : list (string * list AnalysisResult)
}.

(** Calls that may raise and that act on the world. *)
Definition M (A : Type) : Type := World -> outcome A * World.

Definition ret {A} (a : A) : M A := fun w => (inr a, w).

Definition bind {A B} (c : M A) (k : A -> M B) : M B :=
  fun w =>
    match c w with
    | (inl e, w') => (inl e, w')
    | (inr a, w') => k a w'
    end.

Definition lift {A} (o : outcome A) : M A := fun w => (o, w).

(** [try: a = c / except Exception as e: return h(e)], then [k a]. *)
Definition try_except {A B} (c : M A) (h : PyException -> M B)
           (k : A -> M B) : M B :=
  fun w =>
    match c w with
    | (inl e, w') => h e w'
    | (inr a, w') => k a w'
    end.

Notation "x <- c ;; k" := (bind c (fun x => k))
  (at level 61, c at next level, right associativity).

Definition eth_get_code (checksum_address : string) : M (list byte) :=
  fun w =>
    let (r, n) := get_code checksum_address (node w) in
    (r, mkWorld n (files w)).

Definition HexBytes_hex (bytecode : list byte) : string :=
  if hexbytes_0x then ("0x" ++ PyBytes.hex bytecode)%string
  else PyBytes.hex bytecode.

Definition fetch_bytecode (address : string) : M string :=
  let address :=
    if negb (PyStr.startswith address "0x") then ("0x" ++ address)%string
    else address in
  checksum_address <- lift (to_checksum_address address) ;;
  bytecode <- eth_get_code checksum_address ;;
  ret (HexBytes_hex bytecode).

Definition analyze_contract (address : string) : M AnalysisResult :=
  try_except (fetch_bytecode address)
    (fun e => ret (Failed address (str_of_exception e)))
    (fun bytecode =>
       opcode_counts <- lift (scan_for_opcodes bytecode) ;;
       ret (Analyzed address
              (PyStr.len bytecode / 2)
              (tstore opcode_counts)
              (tload opcode_counts)
              (0 <? total_eip1153 opcode_counts))).

(** The [for] loop of [batch_analyze]: [results] is the list built so
    far, each result is appended to it. *)
Fixpoint batch_loop (addresses : list string)
         (results : list AnalysisResult) : M (list AnalysisResult) :=
  match addresses with
  | [] => ret results
  | address :: rest =>
      result <- analyze_contract address ;;
      batch_loop rest (results ++ [result])
  end.

Definition batch_analyze (addresses : list string)
  : M (list AnalysisResult) :=
  batch_loop addresses [].

(** [results] are the analyses of [addresses], one per address and in
    their order, each made in the world its predecessor left. *)
Inductive analyzed_in_order
  : list string -> World -> list AnalysisResult -> World -> Prop :=
| analyzed_nil w : analyzed_in_order [] w [] w
| analyzed_cons address rest w result w1 results w2 :
    analyze_contract address w = (inr result, w1) ->
    analyzed_in_order rest w1 results w2 ->
    analyzed_in_order (address :: rest) w (result :: results) w2.

(** [json.dump] to a file opened with mode ['w']: the newest binding of
    a name is the file's content. *)
Definition export_results (results : list AnalysisResult)
           (output_file : string) : M unit :=
  fun w => (inr tt, mkWorld (node w) ((output_file, results) :: files w)).

(** The summary of the batch branch of [main]. *)
Definition summarize (results : list AnalysisResult)
  : outcome BatchSummary :=
  let total := Z.of_nat (List.length results) in
  let with_eip1153 :=
    Z.of_nat (List.length (filter get_uses_eip1153 results)) in
  match truediv with_eip1153 total with
  | inl e => inl e
  | inr q =>
      inr {| total := total;
             with_eip1153 := with_eip1153;
             without_eip1153 := total - with_eip1153;
             adoption_rate := q * 100 |}
  end.

(** The batch branch of [main], from the list of addresses read. *)
Definition main_batch (addresses : list string) : M BatchSummary :=
  results <- batch_analyze addresses ;;
  summary <- lift (summarize results) ;;
  _ <- export_results results "eip1153_scan_results.json" ;;
  ret summary.

End Scanner.

Arguments mkWorld {Node}.
Arguments node {Node}.
Arguments files {Node}.
Arguments ret {Node A}.
Arguments bind {Node A B}.
Arguments lift {Node A}.
Arguments try_except {Node A B}.
Arguments analyzed_in_order {Node}.
Arguments eth_get_code {Node}.
Arguments fetch_bytecode {Node}.
Arguments analyze_contract {Node}.
Arguments batch_loop {Node}.
Arguments batch_analyze {Node}.
Arguments export_results {Node}.
Arguments main_batch {Node}.

(** ** Well-formed hex text *)

Definition is_hex_digit (c : ascii) : bool :=
  let n := nat_of_ascii c in
  ((48 <=? n) && (n <=? 57))        (* 0-9 *)
  || ((97 <=? n) && (n <=? 102))    (* a-f *)
  || ((65 <=? n) && (n <=? 70)).    (* A-F *)

Fixpoint all_hex_digits (text : string) : bool :=
  match text with
  | EmptyString => true
  | String c rest => is_hex_digit c && all_hex_digits rest
  end.

(** Odd length, or a character that is no hex digit. *)
Definition malformed_hex (text : string) : bool :=
  Nat.odd (String.length text) || negb (all_hex_digits text).

(** ** The instruction-level census of the specification

    Follows the words of the specification (its Disassembler and
    OpcodeCensus), for comparison with [scan_for_opcodes]; the source has no
    such pass.  The push-style opcodes are PUSH1..PUSH32, [0x60]..[0x7f],
    carrying 1..32 immediate bytes. *)

Module Design.

Definition immediate_length (opcode : byte) : nat :=
  let n := Byte.to_nat opcode in
  if (96 <=? n) && (n <=? 127) then n - 95 else 0.

Definition tally (opcode : byte) (acc : nat * nat) : nat * nat :=
  match opcode with
  | x5d => (S (fst acc), snd acc)
  | x5c => (fst acc, S (snd acc))
  | _ => acc
  end.

(** [skip] immediate bytes of the current instruction are still ahead of
    the cursor; [acc] holds the TSTORE and TLOAD instructions seen. *)
Fixpoint census_from (code : list byte) (skip : nat) (acc : nat * nat)
  : nat * nat :=
  match code with
  | [] => acc
  | b :: rest =>
      match skip with
      | S k => census_from rest k acc
      | O => census_from rest (immediate_length b) (tally b acc)
      end
  end.

Definition census (code : list byte) : OpcodeCounts :=
  let (s, l) := census_from code 0 (0, 0) in
  {| tstore := s; tload := l; total_eip1153 := s + l |}.

End Design.

(** ** A canned endpoint

    A chain given as a table from checksummed address to deployed code; the
    node counts the requests it served, and fails the request for an address
    that is not in the table. *)

Module Canned.

Definition to_checksum_address (address : string) : outcome string :=
  inr address.

Fixpoint code_at (chain : list (string * list byte)) (address : string)
  : option (list byte) :=
  match chain with
  | [] => None
  | (a, code) :: rest =>
      if String.eqb a address then Some code else code_at rest address
  end.

Definition get_code (chain : list (string * list byte)) (address : string)
           (requests : nat) : outcome (list byte) * nat :=
  match code_at chain address with
  | Some code => (inr code, S requests)
  | None => (inl (mkException "ConnectionError" "request failed"),
             S requests)
  end.

Definition start : World nat := mkWorld 0 [].

Definition chain : list (string * list byte) :=
  [ ("0xA", [x5d; x5d; x5d]);
    ("0xC", [x60; x5d]);
    ("0xD", [x5d]);
    ("0xE", []) ].

End Canned.

(** ** Construction of the scanner and the command line *)

Definition ValueError (message : string) : PyException :=
  mkException "ValueError" message.

Definition ConnectionError (message : string) : PyException :=
  mkException "ConnectionError" message.

(** The truth value of what [os.getenv] returns: [None] and the empty
    text are false. *)
Definition truthy (v : option string) : bool :=
  match v with
  | Some (String _ _) => true
  | Some EmptyString => false
  | None => false
  end.

(** [a or b] *)
Definition py_or (a b : option string) : option string :=
  if truthy a then a else b.

(** How a run of [main] ends when nothing is raised: [sys.exit(status)],
    the single-contract branch with its result, or the batch branch with
    its summary. *)
Inductive MainOutcome : Type :=
| Exited (status : nat)
| SingleDone (result : AnalysisResult)
| BatchDone (summary : BatchSummary).

Section CommandLine.

Variable Node : Type.

(** [os.getenv] *)
Variable getenv : string -> option string.

(** [Web3(Web3.HTTPProvider(rpc_url)).is_connected()] *)
Variable is_connected : string -> Node -> bool * Node.

Variable to_checksum_address : string -> outcome string.

(** [get_code] of the client bound to the URL given first. *)
Variable get_code_at : string -> string -> Node -> outcome (list byte) * Node.

Variable hexbytes_0x : bool.

(** [open(path, 'r')] and the lines the file yields, or the error of
    [open]. *)
Variable read_lines : string -> outcome (list string).

(** [str.strip()] *)
Variable strip : string -> string.

(** The URL chosen by [__init__], before it connects. *)
Definition choose_rpc_url (rpc_url : option string) : outcome string :=
  match rpc_url with
  | None =>
      let rpc_key :=
        py_or (getenv "RPC_API_KEY") (getenv "ALCHEMY_API_KEY") in
      if negb (truthy rpc_key)
      then inl (ValueError "RPC_API_KEY environment variable not set")
      else
        match rpc_key with
        | Some key =>
            inr ("https://eth-mainnet.g.alchemy.com/v2/" ++ key)%string
        | None => inl (ValueError "RPC_API_KEY environment variable not set")
        end
  | Some url => inr url
  end.

(** [EIP1153Scanner.__init__]: the scanner is the URL its client is bound
    to. *)
Definition init (rpc_url : option string) : M Node string :=
  fun w =>
    match choose_rpc_url rpc_url with
    | inl e => (inl e, w)
    | inr rpc_url =>
        let (connected, n) := is_connected rpc_url (node w) in
        if negb connected
        then (inl (ConnectionError
                     ("Failed to connect to RPC: " ++ rpc_url)%string),
              mkWorld n (files w))
        else (inr rpc_url, mkWorld n (files w))
    end.

(** [[line.strip() for line in f if line.strip()]] *)
Definition read_addresses (path : string) : outcome (list string) :=
  match read_lines path with
  | inl e => inl e
  | inr lines =>
      inr (map strip
             (filter (fun line => truthy (Some (strip line))) lines))
  end.

(** [sys.argv[i]], for an index known to be in range. *)
Definition argv_at (argv : list string) (i : nat) : string :=
  nth i argv EmptyString.

Definition main (argv : list string) : M Node MainOutcome :=
  if List.length argv <? 2 then ret (Exited 1)
  else
    bind (init None) (fun scanner =>
    if String.eqb (argv_at argv 1) "--batch" then
      if List.length argv <? 3 then ret (Exited 1)
      else
        bind (lift (read_addresses (argv_at argv 2))) (fun addresses =>
        bind (main_batch to_checksum_address (get_code_at scanner)
                hexbytes_0x addresses) (fun summary =>
        ret (BatchDone summary)))
    else
      bind (analyze_contract to_checksum_address (get_code_at scanner)
              hexbytes_0x (argv_at argv 1)) (fun result =>
      ret (SingleDone result))).

End CommandLine.

Arguments init {Node}.
Arguments main {Node}.

(** ** A canned environment for the command line *)

Module CannedCli.

Definition getenv (name : string) : option string :=
  if String.eqb name "RPC_API_KEY" then Some ""
  else if String.eqb name "ALCHEMY_API_KEY" then Some "k3y"
  else None.

Definition no_key (name : string) : option string := None.

Definition url : string := "https://eth-mainnet.g.alchemy.com/v2/k3y".

Definition is_connected (rpc_url : string) (requests : nat) : bool * nat :=
  (String.eqb rpc_url url, S requests).

Definition get_code_at (rpc_url : string) :=
  Canned.get_code (if String.eqb rpc_url url then Canned.chain else []).

(** Rejects the one text ["0xnot-an-address"]. *)
Definition to_checksum_address (address : string) : outcome string :=
  if String.eqb address "0xnot-an-address"
  then inl (ValueError "invalid address")
  else inr address.

Definition is_space (c : ascii) : bool :=
  let n := nat_of_ascii c in
  (n =? 32) || ((9 <=? n) && (n <=? 13)).

Fixpoint lstrip (s : string) : string :=
  match s with
  | EmptyString => EmptyString
  | String c t => if is_space c then lstrip t else s
  end.

Fixpoint rstrip (s : string) : string :=
  match s with
  | EmptyString => EmptyString
  | String c t =>
      match rstrip t with
      | EmptyString => if is_space c then EmptyString else String c EmptyString
      | r => String c r
      end
  end.

Definition strip (s : string) : string := rstrip (lstrip s).

Definition newline : string := String (ascii_of_nat 10) EmptyString.

Definition read_lines (path : string) : outcome (list string) :=
  if String.eqb path "contracts.txt"
  then inr [("0xA" ++ newline)%string; newline; (" B " ++ newline)%string;
            "0xC"]
  else if String.eqb path "blank.txt"
  then inr [newline; ("  " ++ newline)%string]
  else inl (mkException "FileNotFoundError" "No such file or directory").

End CannedCli.

Local Abbreviation canned_fetch prefixed :=
  (fetch_bytecode Canned.to_checksum_address (Canned.get_code Canned.chain)
     prefixed).
Local Abbreviation canned_analyze prefixed :=
  (analyze_contract Canned.to_checksum_address (Canned.get_code Canned.chain)
     prefixed).
Local Abbreviation canned_batch prefixed :=
  (batch_analyze Canned.to_checksum_address (Canned.get_code Canned.chain)
     prefixed).
Local Abbreviation canned_main prefixed :=
  (main_batch Canned.to_checksum_address (Canned.get_code Canned.chain)
     prefixed).

Local Abbreviation cli_init :=
  (init CannedCli.getenv CannedCli.is_connected).
Local Abbreviation cli_main :=
  (main CannedCli.getenv CannedCli.is_connected CannedCli.to_checksum_address
     CannedCli.get_code_at false CannedCli.read_lines CannedCli.strip).
Local Abbreviation cli_analyze :=
  (analyze_contract CannedCli.to_checksum_address
     (CannedCli.get_code_at CannedCli.url) false).

(** * Facts *)

(** ** Strings and bytes *)

Lemma count_skipping_slice (sub s : string) (k : nat) :
  PyStr.count_skipping sub s k
  = PyStr.count_skipping sub (PyStr.slice_from k s) 0.
Proof.
  revert k; induction s as [|c t IH]; intros [|k]; try reflexivity.
  simpl PyStr.slice_from. rewrite <- IH. reflexivity.
Qed.

(** [count] finds the leftmost occurrence, steps over the whole of it and
    goes on: occurrences that overlap a counted one are not counted. *)
Lemma count_unfold (sub : string) (c : ascii) (t : string) :
  sub <> EmptyString ->
  PyStr.count (String c t) sub
  = if String.prefix sub (String c t)
    then S (PyStr.count (PyStr.slice_from (String.length sub) (String c t)) sub)
    else PyStr.count t sub.
Proof.
  intros Hsub. destruct sub as [|a sub']; [congruence|].
  unfold PyStr.count.
  change (PyStr.count_skipping (String a sub') (String c t) 0)
    with (if String.prefix (String a sub') (String c t)
          then S (PyStr.count_skipping (String a sub') t
                    (String.length (String a sub') - 1))
          else PyStr.count_skipping (String a sub') t 0).
  destruct (String.prefix (String a sub') (String c t)); [|reflexivity].
  rewrite count_skipping_slice. f_equal. f_equal.
  simpl. rewrite Nat.sub_0_r. reflexivity.
Qed.

Lemma count_empty_text (sub : string) :
  sub <> EmptyString -> PyStr.count EmptyString sub = 0.
Proof. destruct sub; [congruence | reflexivity]. Qed.

Lemma hex_length (bs : list byte) :
  String.length (PyBytes.hex bs) = 2 * List.length bs.
Proof.
  induction bs as [|b rest IH]; [reflexivity|].
  simpl. rewrite IH. lia.
Qed.

Lemma strip_0x_prefixed (text : string) :
  strip_0x ("0x" ++ text) = text.
Proof. destruct text; reflexivity. Qed.

Lemma strip_0x_bare (text : string) :
  PyStr.startswith text "0x" = false -> strip_0x text = text.
Proof. unfold strip_0x. intros ->. reflexivity. Qed.

(** ** The scan *)

(** C3, as amended: for every input text the scan strips one leading ["0x"]
    when there is one and returns the numbers of non-overlapping occurrences
    of ["5d"] and ["5c"] in the remaining text, and their sum.  It validates
    nothing and never raises, whatever the length of the text and whatever
    its characters; it decodes no byte sequence. *)
Theorem scan_for_opcodes_never_rejects (text : string) :
  scan_for_opcodes ("0x" ++ text)
  = inr (mkCounts (PyStr.count text "5d") (PyStr.count text "5c")
           (PyStr.count text "5d" + PyStr.count text "5c"))
  /\ (PyStr.startswith text "0x" = false ->
      scan_for_opcodes text
      = inr (mkCounts (PyStr.count text "5d") (PyStr.count text "5c")
               (PyStr.count text "5d" + PyStr.count text "5c"))).
Proof.
  split.
  - unfold scan_for_opcodes. rewrite strip_0x_prefixed. reflexivity.
  - intros Hbare. unfold scan_for_opcodes. rewrite (strip_0x_bare _ Hbare).
    reflexivity.
Qed.

Lemma scan_for_opcodes_never_rejects_witness :
  PyStr.startswith "5dz" "0x" = false
  /\ scan_for_opcodes "5dz" = inr (mkCounts 1 0 1).
Proof.
  split; [reflexivity|].
  exact (proj2 (scan_for_opcodes_never_rejects "5dz") eq_refl).
Defined.

(** C3, as stated, fails: the text ["0x5dz"] has, without its prefix, odd
    length and the character [z], and the scan returns counts for it. *)
Lemma malformed_hex_is_scanned :
  malformed_hex (strip_0x "0x5dz") = true
  /\ scan_for_opcodes "0x5dz" = inr (mkCounts 1 0 1)
  /\ ~ (forall text, malformed_hex (strip_0x text) = true ->
                     exists e, scan_for_opcodes text = inl e).
Proof.
  split; [reflexivity|]. split; [reflexivity|].
  intros H. destruct (H "0x5dz" eq_refl) as [e He]. discriminate He.
Qed.

(** C1 (the code departs from it): for the code [60 5d], PUSH1 with the
    immediate byte [0x5d], the scan reports one TSTORE, where the
    instruction-level census of the specification reports none. *)
Theorem push_immediate_is_counted :
  PyBytes.hex [x60; x5d] = "605d"
  /\ scan_for_opcodes "605d" = inr (mkCounts 1 0 1)
  /\ Design.census [x60; x5d] = mkCounts 0 0 0.
Proof. repeat split. Qed.

(** C9: the count matches across byte boundaries.  The bytes [05 d0] hold
    no byte [0x5d]; their hex text ["05d0"] holds ["5d"] at offset 1, and the
    scan reports one TSTORE. *)
Theorem count_crosses_byte_boundaries :
  PyBytes.hex [x05; xd0] = "05d0"
  /\ scan_for_opcodes "05d0" = inr (mkCounts 1 0 1)
  /\ exists code counts,
       ~ In x5d code
       /\ scan_for_opcodes (PyBytes.hex code) = inr counts
       /\ 0 < tstore counts.
Proof.
  split; [reflexivity|]. split; [reflexivity|].
  exists [x05; xd0], (mkCounts 1 0 1). split; [|split].
  - simpl. intros [H|[H|[]]]; discriminate H.
  - reflexivity.
  - simpl. lia.
Qed.

(** ** The summary *)

Lemma summarize_empty : summarize [] = inl ZeroDivisionError.
Proof. reflexivity. Qed.

Lemma summarize_nonempty (results : list AnalysisResult) :
  results <> [] ->
  exists summary,
    summarize results = inr summary
    /\ total summary = Z.of_nat (List.length results).
Proof.
  intros Hne. unfold summarize, truediv.
  destruct (Z.eqb_spec (Z.of_nat (List.length results)) 0) as [Hz|Hz].
  - destruct results; [congruence | discriminate Hz].
  - eexists. split; reflexivity.
Qed.

(** ** The scanner over an arbitrary endpoint *)

Section ScannerFacts.

Variable Node : Type.
Variable to_checksum_address : string -> outcome string.
Variable get_code : string -> Node -> outcome (list byte) * Node.
Variable hexbytes_0x : bool.

Local Abbreviation fetch_bytecode' :=
  (fetch_bytecode to_checksum_address get_code hexbytes_0x).
Local Abbreviation analyze_contract' :=
  (analyze_contract to_checksum_address get_code hexbytes_0x).
Local Abbreviation batch_loop' :=
  (batch_loop to_checksum_address get_code hexbytes_0x).
Local Abbreviation batch_analyze' :=
  (batch_analyze to_checksum_address get_code hexbytes_0x).
Local Abbreviation main_batch' :=
  (main_batch to_checksum_address get_code hexbytes_0x).
Local Abbreviation analyzed_in_order' :=
  (analyzed_in_order to_checksum_address get_code hexbytes_0x).

Implicit Types (w : World Node) (address : string).

Lemma analyze_contract_fetched address w bytecode w' :
  fetch_bytecode' address w = (inr bytecode, w') ->
  analyze_contract' address w
  = (inr (Analyzed address
            (PyStr.len bytecode / 2)
            (PyStr.count (strip_0x bytecode) "5d")
            (PyStr.count (strip_0x bytecode) "5c")
            (0 <? PyStr.count (strip_0x bytecode) "5d"
                  + PyStr.count (strip_0x bytecode) "5c")), w').
Proof.
  intros Hfetch. unfold analyze_contract, try_except.
  rewrite Hfetch. reflexivity.
Qed.

Lemma analyze_contract_failed address w e w' :
  fetch_bytecode' address w = (inl e, w') ->
  analyze_contract' address w
  = (inr (Failed address (str_of_exception e)), w').
Proof.
  intros Hfetch. unfold analyze_contract, try_except.
  rewrite Hfetch. reflexivity.
Qed.

(** [analyze_contract] returns for every address, with a result that
    carries the address it was given. *)
Lemma analyze_contract_returns address w :
  exists result w',
    analyze_contract' address w = (inr result, w')
    /\ result_address result = address.
Proof.
  destruct (fetch_bytecode' address w) as [[e|bytecode] w'] eqn:Hfetch.
  - rewrite (analyze_contract_failed _ _ _ _ Hfetch). eauto.
  - rewrite (analyze_contract_fetched _ _ _ _ Hfetch). eauto.
Qed.

Lemma analyze_contract_address address w result w' :
  analyze_contract' address w = (inr result, w') ->
  result_address result = address.
Proof.
  intros Hrun.
  destruct (analyze_contract_returns address w) as (r & w1 & Hr & Ha).
  rewrite Hr in Hrun. injection Hrun as <- <-. exact Ha.
Qed.

Lemma analyzed_in_order_addresses addresses w results w' :
  analyzed_in_order' addresses w results w' ->
  map result_address results = addresses.
Proof.
  induction 1 as [|address rest w result w1 results w2 Hrun _ IH].
  - reflexivity.
  - simpl. rewrite IH, (analyze_contract_address _ _ _ _ Hrun).
    reflexivity.
Qed.

Lemma batch_loop_appends addresses :
  forall acc w,
  exists results w',
    batch_loop' addresses acc w = (inr (acc ++ results), w')
    /\ analyzed_in_order' addresses w results w'.
Proof.
  induction addresses as [|address rest IH]; intros acc w.
  - exists [], w. simpl. unfold ret. rewrite app_nil_r.
    split; [reflexivity | constructor].
  - destruct (analyze_contract_returns address w) as (r & w1 & Hr & _).
    destruct (IH (acc ++ [r]) w1) as (rs & w2 & Hloop & Horder).
    exists (r :: rs), w2. split.
    + simpl. unfold bind. rewrite Hr, Hloop, <- app_assoc. reflexivity.
    + econstructor; eassumption.
Qed.

Lemma batch_analyze_runs addresses w :
  exists results w',
    batch_analyze' addresses w = (inr results, w')
    /\ analyzed_in_order' addresses w results w'.
Proof.
  destruct (batch_loop_appends addresses [] w) as (rs & w' & Hloop & Ho).
  exists rs, w'. split; [exact Hloop | exact Ho].
Qed.

(** C6: when the fetch raises, [analyze_contract] returns: its result is
    the dictionary with [success] false that carries the address and the
    text of the exception, and nothing is raised to the caller. *)
Theorem analyze_contract_captures_error address w e w' :
  fetch_bytecode' address w = (inl e, w') ->
  exists result,
    analyze_contract' address w = (inr result, w')
    /\ result = Failed address (str_of_exception e)
    /\ success result = false
    /\ get_error result = Some (str_of_exception e).
Proof.
  intros Hfetch. eexists. split.
  - apply analyze_contract_failed, Hfetch.
  - repeat split.
Qed.

(** C8: in the result of a successful analysis, [uses_eip1153] is true
    exactly when [tstore_count] or [tload_count] is positive. *)
Theorem uses_eip1153_iff_positive_count address w result w' :
  analyze_contract' address w = (inr result, w') ->
  success result = true ->
  exists tstore_count tload_count,
    get_tstore_count result = Some tstore_count
    /\ get_tload_count result = Some tload_count
    /\ (get_uses_eip1153 result = true
        <-> 0 < tstore_count \/ 0 < tload_count).
Proof.
  intros Hrun Hok.
  destruct (fetch_bytecode' address w) as [[e|bytecode] w1] eqn:Hfetch.
  - rewrite (analyze_contract_failed _ _ _ _ Hfetch) in Hrun.
    inversion Hrun; subst. discriminate Hok.
  - rewrite (analyze_contract_fetched _ _ _ _ Hfetch) in Hrun.
    inversion Hrun; subst. do 2 eexists. split; [reflexivity|].
    split; [reflexivity|]. simpl. rewrite Nat.ltb_lt. lia.
Qed.

(** C2: the scan of the hex text of the single byte [0x5d] returns
    [tstore] 1 and [tload] 0, the scan of ["5d5d5d"] returns [tstore] 3 and
    [tload] 0; and when the fetched text is, apart from a ["0x"] it may
    start with, the first (the second) of these, the analysis succeeds with
    [tstore_count] 1 (3), [tload_count] 0 and [uses_eip1153] true. *)
Theorem standalone_tstore_is_counted :
  scan_for_opcodes (PyBytes.hex [x5d]) = inr (mkCounts 1 0 1)
  /\ scan_for_opcodes "5d5d5d" = inr (mkCounts 3 0 3)
  /\ forall address w bytecode w',
       fetch_bytecode' address w = (inr bytecode, w') ->
       (strip_0x bytecode = PyBytes.hex [x5d] ->
        exists size,
          analyze_contract' address w
          = (inr (Analyzed address size 1 0 true), w'))
       /\ (strip_0x bytecode = "5d5d5d" ->
           exists size,
             analyze_contract' address w
             = (inr (Analyzed address size 3 0 true), w')).
Proof.
  split; [reflexivity|]. split; [reflexivity|].
  intros address w bytecode w' Hfetch.
  rewrite (analyze_contract_fetched _ _ _ _ Hfetch).
  split; intros ->; eexists; reflexivity.
Qed.

Lemma fetch_bytecode_renders address w checksum_address code n :
  to_checksum_address
    (if negb (PyStr.startswith address "0x") then "0x" ++ address
     else address)%string
  = inr checksum_address ->
  get_code checksum_address (node w) = (inr code, n) ->
  fetch_bytecode' address w
  = (inr (HexBytes_hex hexbytes_0x code), mkWorld n (files w)).
Proof.
  intros Hsum Hcode. unfold fetch_bytecode, bind, lift, eth_get_code, ret.
  rewrite Hsum, Hcode. reflexivity.
Qed.

(** The size reported for the code [code]: its length when the hex text
    comes bare, one more when it comes with ["0x"] in front. *)
Lemma bytecode_size_of_code address w code w' :
  fetch_bytecode' address w = (inr (HexBytes_hex hexbytes_0x code), w') ->
  exists result,
    analyze_contract' address w = (inr result, w')
    /\ get_bytecode_size result
       = Some (List.length code + if hexbytes_0x then 1 else 0).
Proof.
  intros Hfetch. eexists. split.
  - apply analyze_contract_fetched, Hfetch.
  - cbn [get_bytecode_size]. f_equal. unfold HexBytes_hex, PyStr.len.
    destruct hexbytes_0x.
    + replace (String.length ("0x" ++ PyBytes.hex code))
        with ((List.length code + 1) * 2)
        by (simpl; rewrite hex_length; lia).
      apply Nat.div_mul. discriminate.
    + rewrite hex_length, Nat.mul_comm, Nat.add_0_r.
      apply Nat.div_mul. discriminate.
Qed.

(** C7: [batch_analyze] returns for every list of addresses, with one
    result per address, in the order of the addresses, each the analysis
    of its address in the world the one before left; a fetch that fails
    yields a failed result and the loop goes on.  For three addresses of
    which the second fails to fetch, the results are the three analyses
    in order, the second one failed, and the summary has [total] 3. *)
Theorem batch_analyze_in_order :
  (forall addresses w,
      exists results w',
        batch_analyze' addresses w = (inr results, w')
        /\ analyzed_in_order' addresses w results w'
        /\ map result_address results = addresses
        /\ List.length results = List.length addresses)
  /\ (forall A B C w rA w1 e w2 rC w3,
         analyze_contract' A w = (inr rA, w1) ->
         fetch_bytecode' B w1 = (inl e, w2) ->
         analyze_contract' C w2 = (inr rC, w3) ->
         batch_analyze' [A; B; C] w
         = (inr [rA; Failed B (str_of_exception e); rC], w3)
         /\ exists summary,
              summarize [rA; Failed B (str_of_exception e); rC]
              = inr summary
              /\ total summary = 3%Z).
Proof.
  split.
  - intros addresses w.
    destruct (batch_analyze_runs addresses w) as (rs & w' & Hrun & Ho).
    exists rs, w'. pose proof (analyzed_in_order_addresses _ _ _ _ Ho) as Hm.
    repeat split; try assumption.
    rewrite <- Hm. symmetry. apply length_map.
  - intros A B C w rA w1 e w2 rC w3 HA HB HC. split.
    + unfold batch_analyze. simpl. unfold bind.
      rewrite HA, (analyze_contract_failed _ _ _ _ HB), HC. reflexivity.
    + destruct (summarize_nonempty
                  [rA; Failed B (str_of_exception e); rC])
        as (summary & Hs & Ht); [discriminate|].
      exists summary. split; assumption.
Qed.

(** C10: on an empty list of addresses the batch branch of [main] raises
    [ZeroDivisionError] when it computes the adoption rate, and writes no
    file; on a list that is not empty it returns the summary, whose
    [total] is the number of addresses.  The summary of a list of results
    raises exactly when the list is empty. *)
Theorem main_batch_needs_an_address :
  (forall w, main_batch' [] w = (inl ZeroDivisionError, w))
  /\ (forall results,
         (exists e, summarize results = inl e) <-> results = [])
  /\ (forall addresses w,
         addresses <> [] ->
         exists summary w',
           main_batch' addresses w = (inr summary, w')
           /\ total summary = Z.of_nat (List.length addresses)).
Proof.
  split; [|split].
  - intros w. reflexivity.
  - intros results. split.
    + intros [e He]. destruct results as [|r rs]; [reflexivity|].
      destruct (summarize_nonempty (r :: rs)) as (s & Hs & _);
        [discriminate | congruence].
    + intros ->. exists ZeroDivisionError. apply summarize_empty.
  - intros addresses w Hne.
    destruct (batch_analyze_runs addresses w) as (rs & w1 & Hrun & Ho).
    pose proof (analyzed_in_order_addresses _ _ _ _ Ho) as Hm.
    assert (Hlen : List.length rs = List.length addresses)
      by (rewrite <- Hm; symmetry; apply length_map).
    destruct (summarize_nonempty rs) as (s & Hs & Ht).
    { intros ->. destruct addresses; [congruence | discriminate Hlen]. }
    exists s. eexists. split.
    + unfold main_batch, bind, lift, export_results, ret.
      rewrite Hrun, Hs. reflexivity.
    + rewrite Ht, Hlen. reflexivity.
Qed.

End ScannerFacts.

(** ** The scanner over the canned endpoint *)

(** C4 (the code departs from it): the contract at [0xD] has the one byte
    [0x5d] as its code.  With the hex text rendered as ["0x5d"], the
    analysis reports [bytecode_size] 2: the two characters of the prefix,
    which [scan_for_opcodes] strips, are counted by [len(bytecode) // 2]. *)
Theorem prefixed_hex_inflates_bytecode_size :
  Canned.code_at Canned.chain "0xD" = Some [x5d]
  /\ canned_fetch true "0xD" Canned.start = (inr "0x5d", mkWorld 1 [])
  /\ canned_analyze true "0xD" Canned.start
     = (inr (Analyzed "0xD" 2 1 0 true), mkWorld 1 []).
Proof. repeat split. Qed.

Lemma analyze_contract_captures_error_witness :
  canned_fetch false "0xB" Canned.start
  = (inl (mkException "ConnectionError" "request failed"), mkWorld 1 [])
  /\ exists result,
       canned_analyze false "0xB" Canned.start = (inr result, mkWorld 1 [])
       /\ result = Failed "0xB" "request failed"
       /\ success result = false
       /\ get_error result = Some "request failed".
Proof.
  split; [reflexivity|].
  exact (analyze_contract_captures_error nat Canned.to_checksum_address
           (Canned.get_code Canned.chain) false "0xB" Canned.start
           (mkException "ConnectionError" "request failed") (mkWorld 1 [])
           eq_refl).
Defined.

Lemma uses_eip1153_iff_positive_count_witness :
  canned_analyze false "0xA" Canned.start
  = (inr (Analyzed "0xA" 3 3 0 true), mkWorld 1 [])
  /\ success (Analyzed "0xA" 3 3 0 true) = true
  /\ exists tstore_count tload_count,
       get_tstore_count (Analyzed "0xA" 3 3 0 true) = Some tstore_count
       /\ get_tload_count (Analyzed "0xA" 3 3 0 true) = Some tload_count
       /\ (get_uses_eip1153 (Analyzed "0xA" 3 3 0 true) = true
           <-> 0 < tstore_count \/ 0 < tload_count).
Proof.
  split; [reflexivity|]. split; [reflexivity|].
  exact (uses_eip1153_iff_positive_count nat Canned.to_checksum_address
           (Canned.get_code Canned.chain) false "0xA" Canned.start
           (Analyzed "0xA" 3 3 0 true) (mkWorld 1 []) eq_refl eq_refl).
Defined.

Lemma standalone_tstore_is_counted_witness :
  (canned_fetch false "0xD" Canned.start = (inr "5d", mkWorld 1 [])
   /\ strip_0x "5d" = PyBytes.hex [x5d]
   /\ exists size,
        canned_analyze false "0xD" Canned.start
        = (inr (Analyzed "0xD" size 1 0 true), mkWorld 1 []))
  /\ (canned_fetch true "0xA" Canned.start = (inr "0x5d5d5d", mkWorld 1 [])
      /\ strip_0x "0x5d5d5d" = "5d5d5d"
      /\ exists size,
           canned_analyze true "0xA" Canned.start
           = (inr (Analyzed "0xA" size 3 0 true), mkWorld 1 [])).
Proof.
  split; (split; [reflexivity|]); (split; [reflexivity|]).
  - exact (proj1 (proj2 (proj2 (standalone_tstore_is_counted nat
             Canned.to_checksum_address (Canned.get_code Canned.chain)
             false)) "0xD" Canned.start "5d" (mkWorld 1 []) eq_refl)
             eq_refl).
  - exact (proj2 (proj2 (proj2 (standalone_tstore_is_counted nat
             Canned.to_checksum_address (Canned.get_code Canned.chain)
             true)) "0xA" Canned.start "0x5d5d5d" (mkWorld 1 []) eq_refl)
             eq_refl).
Defined.

Lemma batch_analyze_in_order_witness :
  (canned_analyze false "0xA" Canned.start
   = (inr (Analyzed "0xA" 3 3 0 true), mkWorld 1 [])
   /\ canned_fetch false "0xB" (mkWorld 1 [])
      = (inl (mkException "ConnectionError" "request failed"), mkWorld 2 [])
   /\ canned_analyze false "0xC" (mkWorld 2 [])
      = (inr (Analyzed "0xC" 2 1 0 true), mkWorld 3 []))
  /\ (canned_batch false ["0xA"; "0xB"; "0xC"] Canned.start
      = (inr [Analyzed "0xA" 3 3 0 true; Failed "0xB" "request failed";
              Analyzed "0xC" 2 1 0 true], mkWorld 3 [])
      /\ exists summary,
           summarize [Analyzed "0xA" 3 3 0 true; Failed "0xB" "request failed";
                      Analyzed "0xC" 2 1 0 true] = inr summary
           /\ total summary = 3%Z).
Proof.
  split; [repeat split|].
  exact (proj2 (batch_analyze_in_order nat Canned.to_checksum_address
                  (Canned.get_code Canned.chain) false)
           "0xA" "0xB" "0xC" Canned.start
           (Analyzed "0xA" 3 3 0 true) (mkWorld 1 [])
           (mkException "ConnectionError" "request failed") (mkWorld 2 [])
           (Analyzed "0xC" 2 1 0 true) (mkWorld 3 [])
           eq_refl eq_refl eq_refl).
Defined.

Lemma main_batch_needs_an_address_witness :
  ["0xA"; "0xB"] <> []
  /\ exists summary w',
       canned_main false ["0xA"; "0xB"] Canned.start = (inr summary, w')
       /\ total summary = Z.of_nat (List.length ["0xA"; "0xB"]).
Proof.
  split; [discriminate|].
  apply (proj2 (proj2 (main_batch_needs_an_address nat
                         Canned.to_checksum_address
                         (Canned.get_code Canned.chain) false))).
  discriminate.
Defined.

(** * Further facts *)

(** ** Occurrences of a text *)

Lemma prefix_empty (s : string) : String.prefix EmptyString s = true.
Proof. destruct s; reflexivity. Qed.

Lemma prefix_app (p b : string) : String.prefix p (p ++ b) = true.
Proof.
  induction p as [|c p IH]; simpl.
  - apply prefix_empty.
  - destruct (ascii_dec c c) as [_|Hne]; [exact IH | congruence].
Qed.

Lemma prefix_app_inv (p s : string) :
  String.prefix p s = true -> exists b, s = (p ++ b)%string.
Proof.
  revert s; induction p as [|c p IH]; intros s Hp.
  - exists s. reflexivity.
  - destruct s as [|d s]; [discriminate Hp|]. simpl in Hp.
    destruct (ascii_dec c d) as [->|_]; [|discriminate Hp].
    destruct (IH s Hp) as [b ->]. exists b. reflexivity.
Qed.

Lemma prefix_other_head (a c : ascii) (p t : string) :
  a <> c -> String.prefix (String a p) (String c t) = false.
Proof.
  intros Hne. simpl. destruct (ascii_dec a c); [contradiction | reflexivity].
Qed.

Lemma count_other_head (a c : ascii) (p t : string) :
  a <> c -> PyStr.count (String c t) (String a p) = PyStr.count t (String a p).
Proof.
  intros Hne. rewrite count_unfold by discriminate.
  rewrite (prefix_other_head _ _ _ _ Hne). reflexivity.
Qed.

Lemma slice_from_app (p b : string) :
  PyStr.slice_from (String.length p) (p ++ b) = b.
Proof. induction p as [|c p IH]; [destruct b; reflexivity | exact IH]. Qed.

(** A text occurs in [s] exactly when [count] is positive. *)
Lemma count_positive_iff (s sub : string) :
  sub <> EmptyString ->
  (0 < PyStr.count s sub <-> exists a b, s = (a ++ sub ++ b)%string).
Proof.
  intros Hsub. split.
  - induction s as [|c t IH]; intros Hpos.
    + rewrite count_empty_text in Hpos by exact Hsub. lia.
    + rewrite count_unfold in Hpos by exact Hsub.
      destruct (String.prefix sub (String c t)) eqn:Hp.
      * destruct (prefix_app_inv _ _ Hp) as [b Hb].
        exists EmptyString, b. exact Hb.
      * destruct (IH Hpos) as (a & b & ->).
        exists (String c a), b. reflexivity.
  - intros (a & b & ->). induction a as [|c a IH].
    + destruct sub as [|x sub]; [congruence|].
      change (("" ++ String x sub ++ b)%string)
        with (String x (sub ++ b)).
      rewrite count_unfold by discriminate.
      change (String x (sub ++ b)) with ((String x sub ++ b)%string).
      rewrite prefix_app. lia.
    + change ((String c a ++ sub ++ b)%string)
        with (String c (a ++ sub ++ b)).
      rewrite count_unfold by exact Hsub.
      destruct (String.prefix sub (String c (a ++ sub ++ b))); [lia|].
      exact IH.
Qed.

(** The two patterns of the scan, read one character pair at a time. *)
Lemma count_pair_step (a b c1 c2 : ascii) (t : string) :
  PyStr.count (String c1 (String c2 t)) (String a (String b EmptyString))
  = if Ascii.eqb a c1 && Ascii.eqb b c2
    then S (PyStr.count t (String a (String b EmptyString)))
    else PyStr.count (String c2 t) (String a (String b EmptyString)).
Proof.
  rewrite count_unfold by discriminate. simpl String.prefix.
  destruct (ascii_dec a c1) as [->|Ha].
  - rewrite Ascii.eqb_refl. destruct (ascii_dec b c2) as [->|Hb].
    + rewrite Ascii.eqb_refl, prefix_empty. reflexivity.
    + apply Ascii.eqb_neq in Hb. rewrite Hb. reflexivity.
  - apply Ascii.eqb_neq in Ha. rewrite Ha. reflexivity.
Qed.

Lemma count_pair_single (a b c : ascii) :
  PyStr.count (String c EmptyString) (String a (String b EmptyString)) = 0.
Proof.
  rewrite count_unfold by discriminate. simpl.
  destruct (ascii_dec a c); reflexivity.
Qed.

Lemma counts_fit (s : string) :
  2 * (PyStr.count s "5d" + PyStr.count s "5c") <= String.length s.
Proof.
  enough (H : 2 * (PyStr.count s "5d" + PyStr.count s "5c")
              <= String.length s
              /\ forall c,
                   2 * (PyStr.count (String c s) "5d"
                        + PyStr.count (String c s) "5c")
                   <= S (String.length s)) by apply H.
  induction s as [|c2 t [IHt IHc]].
  - split; [simpl; lia|]. intros c. rewrite !count_pair_single. lia.
  - split; [apply IHc|]. intros c1. rewrite !count_pair_step.
    specialize (IHc c2). cbn [String.length].
    destruct (Ascii.eqb "5" c1);
      rewrite ?Bool.andb_true_l, ?Bool.andb_false_l; [|lia].
    destruct (Ascii.eqb "d" c2) eqn:Hd.
    + apply Ascii.eqb_eq in Hd. subst c2.
      change (Ascii.eqb "c" "d") with false.
      rewrite (count_other_head "5" "d") by discriminate. lia.
    + destruct (Ascii.eqb "c" c2) eqn:Hc; [|lia].
      apply Ascii.eqb_eq in Hc. subst c2.
      rewrite (count_other_head "5" "c") by discriminate. lia.
Qed.

Lemma strip_0x_length (text : string) :
  String.length (strip_0x text) <= String.length text.
Proof.
  unfold strip_0x. destruct (PyStr.startswith text "0x"); [|lia].
  destruct text as [|c1 [|c2 t]]; simpl; lia.
Qed.

Lemma startswith_0x_inv (text : string) :
  PyStr.startswith text "0x" = true ->
  exists rest, text = ("0x" ++ rest)%string.
Proof. apply prefix_app_inv. Qed.

Lemma hex_app (l1 l2 : list byte) :
  PyBytes.hex (l1 ++ l2) = (PyBytes.hex l1 ++ PyBytes.hex l2)%string.
Proof.
  induction l1 as [|b l1 IH]; [reflexivity|].
  simpl. rewrite IH. reflexivity.
Qed.

Lemma hex_not_prefixed (code : list byte) :
  PyStr.startswith (PyBytes.hex code) "0x" = false.
Proof.
  destruct code as [|b rest]; [reflexivity|].
  destruct b; reflexivity.
Qed.

(** ** More on the scan *)

(** X1: a leading ["0x"] never changes what the scan returns, whether the
    text behind it starts with ["0x"] again or not. *)
Theorem scan_for_opcodes_ignores_prefix (text : string) :
  scan_for_opcodes ("0x" ++ text) = scan_for_opcodes text.
Proof.
  unfold scan_for_opcodes. rewrite strip_0x_prefixed.
  destruct (PyStr.startswith text "0x") eqn:Hp.
  - destruct (startswith_0x_inv _ Hp) as [rest ->].
    rewrite strip_0x_prefixed. unfold TSTORE_OPCODE, TLOAD_OPCODE.
    change (("0x" ++ rest)%string) with (String "0" (String "x" rest)).
    rewrite !(count_other_head "5" "0") by discriminate.
    rewrite !(count_other_head "5" "x") by discriminate.
    reflexivity.
  - rewrite (strip_0x_bare _ Hp). reflexivity.
Qed.

(** X2: the scan reports a positive [tstore] exactly when the text ["5d"]
    occurs somewhere in the text behind the prefix, and a positive [tload]
    exactly when ["5c"] does. *)
Theorem scan_positive_iff_occurs (text : string) :
  exists counts,
    scan_for_opcodes text = inr counts
    /\ (0 < tstore counts
        <-> exists a b, strip_0x text = (a ++ "5d" ++ b)%string)
    /\ (0 < tload counts
        <-> exists a b, strip_0x text = (a ++ "5c" ++ b)%string).
Proof.
  eexists. split; [reflexivity|].
  split; apply count_positive_iff; discriminate.
Qed.

(** X3: the occurrences counted do not overlap, those of ["5d"] and those
    of ["5c"] together: twice [total_eip1153] is at most the length of the
    text behind the prefix. *)
Theorem scan_counts_fit (text : string) :
  exists counts,
    scan_for_opcodes text = inr counts
    /\ total_eip1153 counts = tstore counts + tload counts
    /\ 2 * total_eip1153 counts <= String.length (strip_0x text)
    /\ String.length (strip_0x text) <= String.length text.
Proof.
  eexists. split; [reflexivity|]. split; [reflexivity|].
  split; [apply counts_fit | apply strip_0x_length].
Qed.

(** No opcode byte is missed by the scan: for every code, the scan of its
    hex text, bare or behind ["0x"], reports a positive [tstore] when the
    byte [0x5d] is in the code and a positive [tload] when [0x5c] is. *)
Lemma hex_scan_finds_bytes (code : list byte) :
  exists counts,
    scan_for_opcodes (PyBytes.hex code) = inr counts
    /\ scan_for_opcodes ("0x" ++ PyBytes.hex code) = inr counts
    /\ (In x5d code -> 0 < tstore counts)
    /\ (In x5c code -> 0 < tload counts).
Proof.
  eexists. split; [reflexivity|].
  split; [apply scan_for_opcodes_ignores_prefix|].
  cbn [tstore tload]. rewrite (strip_0x_bare _ (hex_not_prefixed code)).
  split; intros Hin; apply in_split in Hin; destruct Hin as (l1 & l2 & ->);
    apply count_positive_iff; try discriminate;
    exists (PyBytes.hex l1), (PyBytes.hex l2); apply hex_app.
Qed.

Lemma strip_0x_rendered (prefixed : bool) (code : list byte) :
  strip_0x (HexBytes_hex prefixed code) = PyBytes.hex code.
Proof.
  destruct prefixed; unfold HexBytes_hex.
  - apply strip_0x_prefixed.
  - apply strip_0x_bare, hex_not_prefixed.
Qed.

(** ** More on the summary *)

Lemma results_partition (results : list AnalysisResult) :
  List.length results
  = List.length (filter get_uses_eip1153 results)
    + List.length (filter (fun r => negb (success r)) results)
    + List.length
        (filter (fun r => success r && negb (get_uses_eip1153 r)) results).
Proof.
  induction results as [|r rs IH]; [reflexivity|].
  destruct r as [a e|a size ts tl [|]]; simpl; lia.
Qed.

(** X5: when the summary is returned, its [total] is the number of
    results, failed ones included, and is positive, and the two counts are
    between 0 and [total] and add up to it. *)
Theorem summarize_is_consistent (results : list AnalysisResult)
        (summary : BatchSummary) :
  summarize results = inr summary ->
  total summary = Z.of_nat (List.length results)
  /\ (0 < total summary)%Z
  /\ (0 <= with_eip1153 summary <= total summary)%Z
  /\ (0 <= without_eip1153 summary <= total summary)%Z
  /\ (with_eip1153 summary + without_eip1153 summary = total summary)%Z.
Proof.
  unfold summarize, truediv. intros Hs.
  pose proof (results_partition results) as Hpart.
  destruct (Z.eqb_spec (Z.of_nat (List.length results)) 0) as [|Hnz];
    [discriminate Hs|].
  injection Hs as <-. cbn [total with_eip1153 without_eip1153].
  repeat split; lia.
Qed.

Lemma summarize_is_consistent_witness :
  summarize [Analyzed "0xA" 3 3 0 true; Failed "0xB" "request failed"]
  = inr (mkSummary 2 1 1 (Qmake 1 1 / Qmake 2 1 * 100))
  /\ (1 + 1 = 2)%Z.
Proof.
  split; [reflexivity|].
  exact (proj2 (proj2 (proj2 (proj2
           (summarize_is_consistent
              [Analyzed "0xA" 3 3 0 true; Failed "0xB" "request failed"]
              (mkSummary 2 1 1 (Qmake 1 1 / Qmake 2 1 * 100))
              eq_refl))))).
Defined.

(** X6: a failed analysis counts as a contract that does not use
    EIP-1153: [without_eip1153] is the number of failed results plus the
    number of successful results whose flag is false. *)
Theorem failed_results_count_as_not_using (results : list AnalysisResult)
        (summary : BatchSummary) :
  summarize results = inr summary ->
  without_eip1153 summary
  = (Z.of_nat (List.length (filter (fun r => negb (success r)) results))
     + Z.of_nat
         (List.length
            (filter (fun r => success r && negb (get_uses_eip1153 r))
               results)))%Z.
Proof.
  unfold summarize, truediv. intros Hs.
  pose proof (results_partition results) as Hpart.
  destruct (Z.of_nat (List.length results) =? 0)%Z; [discriminate Hs|].
  injection Hs as <-. cbn [without_eip1153]. lia.
Qed.

Lemma failed_results_count_as_not_using_witness :
  summarize [Analyzed "0xA" 3 3 0 true; Failed "0xB" "request failed";
             Analyzed "0xE" 0 0 0 false]
  = inr (mkSummary 3 1 2 (Qmake 1 1 / Qmake 3 1 * 100))
  /\ 2%Z = (Z.of_nat 1 + Z.of_nat 1)%Z.
Proof.
  split; [reflexivity|].
  exact (failed_results_count_as_not_using
           [Analyzed "0xA" 3 3 0 true; Failed "0xB" "request failed";
            Analyzed "0xE" 0 0 0 false]
           (mkSummary 3 1 2 (Qmake 1 1 / Qmake 3 1 * 100)) eq_refl).
Defined.

(** ** More on the scanner over an arbitrary endpoint *)

Section ScannerFurther.

Variable Node : Type.
Variable to_checksum_address : string -> outcome string.
Variable get_code : string -> Node -> outcome (list byte) * Node.
Variable hexbytes_0x : bool.

Local Abbreviation fetch_bytecode' :=
  (fetch_bytecode to_checksum_address get_code hexbytes_0x).
Local Abbreviation analyze_contract' :=
  (analyze_contract to_checksum_address get_code hexbytes_0x).
Local Abbreviation batch_analyze' :=
  (batch_analyze to_checksum_address get_code hexbytes_0x).
Local Abbreviation main_batch' :=
  (main_batch to_checksum_address get_code hexbytes_0x).
Local Abbreviation analyzed_in_order' :=
  (analyzed_in_order to_checksum_address get_code hexbytes_0x).

Implicit Types (w : World Node) (address : string).

Lemma fetch_bytecode_files address w r w' :
  fetch_bytecode' address w = (r, w') -> files w' = files w.
Proof.
  unfold fetch_bytecode, bind, lift, eth_get_code, ret.
  destruct (to_checksum_address _) as [e|checksum_address].
  - intros H. injection H as _ <-. reflexivity.
  - destruct (get_code checksum_address (node w)) as [[e|code] n];
      intros H; injection H as _ <-; reflexivity.
Qed.

Lemma analyze_contract_files address w r w' :
  analyze_contract' address w = (r, w') -> files w' = files w.
Proof.
  destruct (fetch_bytecode' address w) as [[e|bytecode] w1] eqn:Hfetch.
  - rewrite (analyze_contract_failed _ _ _ _ _ _ _ _ Hfetch).
    intros H. injection H as _ <-. exact (fetch_bytecode_files _ _ _ _ Hfetch).
  - rewrite (analyze_contract_fetched _ _ _ _ _ _ _ _ Hfetch).
    intros H. injection H as _ <-. exact (fetch_bytecode_files _ _ _ _ Hfetch).
Qed.

Lemma analyzed_in_order_files addresses w results w' :
  analyzed_in_order' addresses w results w' -> files w' = files w.
Proof.
  induction 1 as [|address rest w result w1 results w2 Hrun _ IH].
  - reflexivity.
  - rewrite IH. exact (analyze_contract_files _ _ _ _ Hrun).
Qed.

Lemma analyzed_in_order_functional addresses w results w' :
  analyzed_in_order' addresses w results w' ->
  forall results2 w2,
    analyzed_in_order' addresses w results2 w2 ->
    results2 = results /\ w2 = w'.
Proof.
  induction 1 as [|address rest w result w1 results w' Hrun _ IH];
    intros results2 w2 H2; inversion H2; subst.
  - split; reflexivity.
  - match goal with
    | H : analyze_contract' address w = _ |- _ =>
        rewrite Hrun in H; injection H as <- <-
    end.
    match goal with
    | H : analyzed_in_order' rest w1 _ _ |- _ =>
        destruct (IH _ _ H) as [-> ->]
    end.
    split; reflexivity.
Qed.

Lemma analyzed_in_order_app l1 w rs1 w1 :
  analyzed_in_order' l1 w rs1 w1 ->
  forall l2 rs2 w2,
    analyzed_in_order' l2 w1 rs2 w2 ->
    analyzed_in_order' (l1 ++ l2) w (rs1 ++ rs2) w2.
Proof.
  induction 1 as [|address rest w result w1 results w' Hrun _ IH];
    intros l2 rs2 w2 H2.
  - exact H2.
  - simpl. econstructor; [exact Hrun | apply IH, H2].
Qed.

Lemma rendered_length_halved (code : list byte) :
  PyStr.len (HexBytes_hex hexbytes_0x code) / 2
  = List.length code + if hexbytes_0x then 1 else 0.
Proof.
  unfold HexBytes_hex, PyStr.len. destruct hexbytes_0x.
  - replace (String.length ("0x" ++ PyBytes.hex code))
      with ((List.length code + 1) * 2)
      by (simpl; rewrite hex_length; lia).
    apply Nat.div_mul. discriminate.
  - rewrite hex_length, Nat.mul_comm, Nat.add_0_r.
    apply Nat.div_mul. discriminate.
Qed.

(** C5 (the code departs from it): for an address whose deployed code is
    the empty byte sequence the analysis succeeds with [tstore_count] 0,
    [tload_count] 0 and [uses_eip1153] false, but its [bytecode_size] is 0
    only when the hex text comes bare: when it comes as ["0x"], the two
    characters of the prefix are reported as one byte. *)
Theorem empty_code_size_follows_rendering address w checksum_address n :
  to_checksum_address
    (if negb (PyStr.startswith address "0x") then "0x" ++ address
     else address)%string = inr checksum_address ->
  get_code checksum_address (node w) = (inr [], n) ->
  exists result,
    analyze_contract' address w = (inr result, mkWorld n (files w))
    /\ result
       = Analyzed address (if hexbytes_0x then 1 else 0) 0 0 false
    /\ success result = true.
Proof.
  intros Hsum Hcode. eexists. split; [|split; reflexivity].
  rewrite (analyze_contract_fetched _ _ _ _ _ _ _ _
             (fetch_bytecode_renders _ _ _ _ _ _ _ _ _ Hsum Hcode)).
  rewrite strip_0x_rendered, rendered_length_halved. reflexivity.
Qed.

(** X4: what the analysis reports for a deployed code.  When the address
    is accepted and the request returns the code, the analysis succeeds;
    its counts are the numbers of occurrences of ["5d"] and ["5c"] in the
    bare hex text of the code whichever way the text was rendered, and its
    [bytecode_size] is the number of bytes of the code when the text came
    bare and one more when it came behind ["0x"]. *)
Theorem analysis_of_deployed_code address w checksum_address code n :
  to_checksum_address
    (if negb (PyStr.startswith address "0x") then "0x" ++ address
     else address)%string = inr checksum_address ->
  get_code checksum_address (node w) = (inr code, n) ->
  analyze_contract' address w
  = (inr (Analyzed address
            (List.length code + if hexbytes_0x then 1 else 0)
            (PyStr.count (PyBytes.hex code) "5d")
            (PyStr.count (PyBytes.hex code) "5c")
            (0 <? PyStr.count (PyBytes.hex code) "5d"
                  + PyStr.count (PyBytes.hex code) "5c")),
     mkWorld n (files w)).
Proof.
  intros Hsum Hcode.
  rewrite (analyze_contract_fetched _ _ _ _ _ _ _ _
             (fetch_bytecode_renders _ _ _ _ _ _ _ _ _ Hsum Hcode)).
  rewrite strip_0x_rendered, rendered_length_halved. reflexivity.
Qed.

(** X7: an address that [to_checksum_address] rejects is reported as a
    failed result with the text of that error, and no request is made: the
    world is the one before the call. *)
Theorem rejected_address_is_not_requested address w e :
  to_checksum_address
    (if negb (PyStr.startswith address "0x") then "0x" ++ address
     else address)%string = inl e ->
  analyze_contract' address w
  = (inr (Failed address (str_of_exception e)), w).
Proof.
  intros Hsum. apply analyze_contract_failed.
  unfold fetch_bytecode, bind, lift. rewrite Hsum. reflexivity.
Qed.

(** X8: an address without ["0x"] is fetched as the address with ["0x"]
    put before it, so both spellings are analyzed alike: the same world
    after, the same outcome and the same sizes, counts and flag; only the
    [address] of the result is the spelling given. *)
Theorem address_prefix_is_optional address w :
  PyStr.startswith address "0x" = false ->
  fetch_bytecode' ("0x" ++ address) w = fetch_bytecode' address w
  /\ exists r1 r2 w',
       analyze_contract' ("0x" ++ address) w = (inr r1, w')
       /\ analyze_contract' address w = (inr r2, w')
       /\ result_address r1 = ("0x" ++ address)%string
       /\ result_address r2 = address
       /\ success r1 = success r2
       /\ get_error r1 = get_error r2
       /\ get_bytecode_size r1 = get_bytecode_size r2
       /\ get_tstore_count r1 = get_tstore_count r2
       /\ get_tload_count r1 = get_tload_count r2
       /\ get_uses_eip1153 r1 = get_uses_eip1153 r2.
Proof.
  intros Hbare.
  assert (Hfetch : fetch_bytecode' ("0x" ++ address) w
                   = fetch_bytecode' address w).
  { unfold fetch_bytecode. rewrite Hbare.
    replace (PyStr.startswith ("0x" ++ address) "0x") with true
      by (symmetry; apply (prefix_app "0x")).
    reflexivity. }
  split; [exact Hfetch|].
  destruct (fetch_bytecode' address w) as [[e|bytecode] w'] eqn:Hf.
  - do 3 eexists.
    split; [apply analyze_contract_failed; exact Hfetch|].
    split; [apply analyze_contract_failed; exact Hf|].
    repeat split.
  - do 3 eexists.
    split; [apply analyze_contract_fetched; exact Hfetch|].
    split; [apply analyze_contract_fetched; exact Hf|].
    repeat split.
Qed.

(** X9: in every successful result the two counts together are at most
    the reported [bytecode_size]. *)
Theorem counts_within_bytecode_size address w result w' :
  analyze_contract' address w = (inr result, w') ->
  success result = true ->
  exists size tstore_count tload_count,
    get_bytecode_size result = Some size
    /\ get_tstore_count result = Some tstore_count
    /\ get_tload_count result = Some tload_count
    /\ tstore_count + tload_count <= size.
Proof.
  intros Hrun Hok.
  destruct (fetch_bytecode' address w) as [[e|bytecode] w1] eqn:Hfetch.
  - rewrite (analyze_contract_failed _ _ _ _ _ _ _ _ Hfetch) in Hrun.
    injection Hrun as <- _. discriminate Hok.
  - rewrite (analyze_contract_fetched _ _ _ _ _ _ _ _ Hfetch) in Hrun.
    injection Hrun as <- _. do 3 eexists. repeat split.
    change (PyStr.count (strip_0x bytecode) "5d"
            + PyStr.count (strip_0x bytecode) "5c"
            <= PyStr.len bytecode / 2).
    apply Nat.div_le_lower_bound; [discriminate|].
    pose proof (counts_fit (strip_0x bytecode)).
    pose proof (strip_0x_length bytecode).
    unfold PyStr.len. lia.
Qed.

(** X10: no opcode byte is missed.  When the code fetched holds the byte
    [0x5d] or the byte [0x5c], the analysis succeeds with [uses_eip1153]
    true, whichever way the hex text is rendered; [tstore_count] is
    positive in the first case, [tload_count] in the second. *)
Theorem present_opcode_byte_is_flagged address w code w' :
  fetch_bytecode' address w = (inr (HexBytes_hex hexbytes_0x code), w') ->
  In x5d code \/ In x5c code ->
  exists size tstore_count tload_count,
    analyze_contract' address w
    = (inr (Analyzed address size tstore_count tload_count true), w')
    /\ (In x5d code -> 0 < tstore_count)
    /\ (In x5c code -> 0 < tload_count).
Proof.
  intros Hfetch Hin.
  rewrite (analyze_contract_fetched _ _ _ _ _ _ _ _ Hfetch).
  rewrite strip_0x_rendered.
  destruct (hex_scan_finds_bytes code) as (counts & Hscan & _ & Hs & Hl).
  unfold scan_for_opcodes in Hscan.
  rewrite (strip_0x_bare _ (hex_not_prefixed code)) in Hscan.
  injection Hscan as <-. cbn [tstore tload] in Hs, Hl.
  do 3 eexists. split; [|split; [exact Hs | exact Hl]].
  do 2 f_equal. f_equal. apply Nat.ltb_lt.
  unfold TSTORE_OPCODE, TLOAD_OPCODE in *.
  destruct Hin as [H|H]; [apply Hs in H | apply Hl in H]; lia.
Qed.

(** X11: a batch over two lists one after the other is the batch over the
    first followed, in the world it leaves, by the batch over the second,
    with the results appended; the batch over no address returns no result
    and leaves the world as it is. *)
Theorem batch_analyze_app (l1 l2 : list string) w :
  batch_analyze to_checksum_address get_code hexbytes_0x [] w = (inr [], w)
  /\ exists rs1 w1 rs2 w2,
       batch_analyze to_checksum_address get_code hexbytes_0x l1 w
       = (inr rs1, w1)
       /\ batch_analyze to_checksum_address get_code hexbytes_0x l2 w1
          = (inr rs2, w2)
       /\ batch_analyze to_checksum_address get_code hexbytes_0x
            (l1 ++ l2) w
          = (inr (rs1 ++ rs2), w2).
Proof.
  split; [reflexivity|].
  destruct (batch_analyze_runs Node to_checksum_address get_code hexbytes_0x l1 w) as (rs1 & w1 & Hb1 & Ho1).
  destruct (batch_analyze_runs Node to_checksum_address get_code hexbytes_0x l2 w1) as (rs2 & w2 & Hb2 & Ho2).
  destruct (batch_analyze_runs Node to_checksum_address get_code hexbytes_0x (l1 ++ l2) w) as (rs & w3 & Hb & Ho).
  destruct (analyzed_in_order_functional _ _ _ _
              (analyzed_in_order_app _ _ _ _ Ho1 _ _ _ Ho2) _ _ Ho)
    as [-> ->].
  exists rs1, w1, rs2, w2. repeat split; assumption.
Qed.

(** X12: when the batch branch of [main] returns, the file
    [eip1153_scan_results.json] holds the results of the batch, one per
    address and in the order of the addresses, the summary is the one of
    these results, and the files there were are kept; the analyses
    themselves write no file. *)
Theorem main_batch_exports_results (addresses : list string) w summary w' :
  main_batch' addresses w = (inr summary, w') ->
  exists results,
    files w' = ("eip1153_scan_results.json", results) :: files w
    /\ batch_analyze' addresses w = (inr results, mkWorld (node w') (files w))
    /\ map result_address results = addresses
    /\ summarize results = inr summary.
Proof.
  intros Hmain.
  destruct (batch_analyze_runs Node to_checksum_address get_code hexbytes_0x addresses w) as (rs & w1 & Hb & Ho).
  pose proof (analyzed_in_order_files _ _ _ _ Ho) as Hfiles.
  unfold main_batch, bind, lift, export_results, ret in Hmain.
  rewrite Hb in Hmain.
  destruct (summarize rs) as [e|s] eqn:Hs; [discriminate Hmain|].
  injection Hmain as <- <-. exists rs. cbn [files node].
  rewrite Hfiles. repeat split.
  - rewrite Hb. destruct w1 as [n1 f1]. cbn in Hfiles. subst f1. reflexivity.
  - exact (analyzed_in_order_addresses _ _ _ _ _ _ _ _ Ho).
  - exact Hs.
Qed.

Lemma main_batch_runs (addresses : list string) w :
  addresses <> [] ->
  exists summary results w1,
    batch_analyze' addresses w = (inr results, w1)
    /\ main_batch' addresses w
       = (inr summary,
          mkWorld (node w1)
            (("eip1153_scan_results.json", results) :: files w))
    /\ map result_address results = addresses
    /\ total summary = Z.of_nat (List.length addresses).
Proof.
  intros Hne.
  destruct (batch_analyze_runs Node to_checksum_address get_code hexbytes_0x
              addresses w) as (rs & w1 & Hb & Ho).
  pose proof (analyzed_in_order_addresses _ _ _ _ _ _ _ _ Ho) as Hm.
  pose proof (analyzed_in_order_files _ _ _ _ Ho) as Hfiles.
  destruct (summarize_nonempty rs) as (s & Hs & Ht).
  { intros ->. simpl in Hm. congruence. }
  exists s, rs, w1. repeat split; try assumption.
  - unfold main_batch, bind, lift, export_results, ret.
    rewrite Hb, Hs, Hfiles. reflexivity.
  - rewrite Ht, <- Hm, length_map. reflexivity.
Qed.

End ScannerFurther.

(** ** The construction of the scanner and the command line *)

Section CommandLineFacts.

Variable Node : Type.
Variable getenv : string -> option string.
Variable is_connected : string -> Node -> bool * Node.
Variable to_checksum_address : string -> outcome string.
Variable get_code_at : string -> string -> Node -> outcome (list byte) * Node.
Variable hexbytes_0x : bool.
Variable read_lines : string -> outcome (list string).
Variable strip : string -> string.

Local Abbreviation choose_rpc_url' := (choose_rpc_url getenv).
Local Abbreviation init' := (init getenv is_connected).
Local Abbreviation main' :=
  (main getenv is_connected to_checksum_address get_code_at hexbytes_0x
     read_lines strip).
Local Abbreviation no_key_error :=
  (ValueError "RPC_API_KEY environment variable not set").
Local Abbreviation nonblank := (fun line => truthy (Some (strip line))).

Implicit Types (w : World Node).

Lemma truthy_some (v : option string) :
  truthy v = true ->
  exists key, v = Some key /\ key <> EmptyString.
Proof.
  destruct v as [[|c k]|]; try discriminate.
  intros _. eexists. split; [reflexivity | discriminate].
Qed.

Lemma truthy_key (key : string) :
  key <> EmptyString -> truthy (Some key) = true.
Proof. destruct key; [congruence | reflexivity]. Qed.

Lemma choose_rpc_url_no_key :
  truthy (getenv "RPC_API_KEY") = false ->
  truthy (getenv "ALCHEMY_API_KEY") = false ->
  choose_rpc_url' None = inl no_key_error.
Proof.
  intros H1 H2. unfold choose_rpc_url, py_or. rewrite H1, H2. reflexivity.
Qed.

Lemma choose_rpc_url_first (key : string) :
  getenv "RPC_API_KEY" = Some key -> key <> EmptyString ->
  choose_rpc_url' None
  = inr ("https://eth-mainnet.g.alchemy.com/v2/" ++ key)%string.
Proof.
  intros H1 Hkey. unfold choose_rpc_url, py_or.
  rewrite H1, (truthy_key _ Hkey). cbv beta iota.
  rewrite (truthy_key _ Hkey). reflexivity.
Qed.

Lemma choose_rpc_url_second (key : string) :
  truthy (getenv "RPC_API_KEY") = false ->
  getenv "ALCHEMY_API_KEY" = Some key -> key <> EmptyString ->
  choose_rpc_url' None
  = inr ("https://eth-mainnet.g.alchemy.com/v2/" ++ key)%string.
Proof.
  intros H1 H2 Hkey. unfold choose_rpc_url, py_or.
  rewrite H1, H2, (truthy_key _ Hkey). reflexivity.
Qed.

Lemma init_connects (rpc_url : option string) (url : string) w ok n :
  choose_rpc_url' rpc_url = inr url ->
  is_connected url (node w) = (ok, n) ->
  init' rpc_url w
  = (if ok then inr url
     else inl (ConnectionError ("Failed to connect to RPC: " ++ url)%string),
     mkWorld n (files w)).
Proof.
  intros Hurl Hcon. unfold init. rewrite Hurl, Hcon.
  destruct ok; reflexivity.
Qed.

Lemma init_files (rpc_url : option string) w r w' :
  init' rpc_url w = (r, w') -> files w' = files w.
Proof.
  unfold init. destruct (choose_rpc_url' rpc_url) as [e|url].
  - intros H. injection H as _ <-. reflexivity.
  - destruct (is_connected url (node w)) as [[|] n];
      intros H; injection H as _ <-; reflexivity.
Qed.

(** X13: without an explicit URL, the construction of the scanner raises
    the [ValueError] for the missing key before it connects (the world is
    untouched) when [RPC_API_KEY] and [ALCHEMY_API_KEY] are both unset or
    empty, and it raises a [ValueError] in no other case. *)
Theorem init_requires_key w :
  (truthy (getenv "RPC_API_KEY") = false ->
   truthy (getenv "ALCHEMY_API_KEY") = false ->
   init' None w = (inl no_key_error, w))
  /\ (forall e w',
         init' None w = (inl e, w') ->
         exc_class e = "ValueError" ->
         truthy (getenv "RPC_API_KEY") = false
         /\ truthy (getenv "ALCHEMY_API_KEY") = false).
Proof.
  split.
  - intros H1 H2. unfold init.
    rewrite (choose_rpc_url_no_key H1 H2). reflexivity.
  - intros e w' Hinit Hclass.
    assert (Hurl : forall url, choose_rpc_url' None = inr url -> False).
    { intros url Hurl.
      destruct (is_connected url (node w)) as [ok n] eqn:Hcon.
      rewrite (init_connects _ _ _ _ _ Hurl Hcon) in Hinit.
      destruct ok; [discriminate Hinit|].
      injection Hinit as <- _. discriminate Hclass. }
    destruct (truthy (getenv "RPC_API_KEY")) eqn:H1.
    { destruct (truthy_some _ H1) as (key & Hk & Hne).
      destruct (Hurl _ (choose_rpc_url_first _ Hk Hne)). }
    destruct (truthy (getenv "ALCHEMY_API_KEY")) eqn:H2.
    { destruct (truthy_some _ H2) as (key & Hk & Hne).
      destruct (Hurl _ (choose_rpc_url_second _ H1 Hk Hne)). }
    split; reflexivity.
Qed.

(** X14: the URL the scanner connects to is the explicit one when there
    is one (the environment is not read, and an empty URL is taken as it
    is); otherwise the Alchemy URL of [RPC_API_KEY] when that is set and
    not empty, whatever [ALCHEMY_API_KEY] is; otherwise the Alchemy URL of
    [ALCHEMY_API_KEY].  The scanner is built when [is_connected] answers
    true; when it answers false a [ConnectionError] is raised whose text
    holds the whole URL, the key included. *)
Theorem init_connects_to_chosen_url w :
  (forall url ok n,
      is_connected url (node w) = (ok, n) ->
      init' (Some url) w
      = (if ok then inr url
         else inl (ConnectionError
                     ("Failed to connect to RPC: " ++ url)%string),
         mkWorld n (files w)))
  /\ (forall key url ok n,
         (getenv "RPC_API_KEY" = Some key
          \/ (truthy (getenv "RPC_API_KEY") = false
              /\ getenv "ALCHEMY_API_KEY" = Some key)) ->
         key <> EmptyString ->
         url = ("https://eth-mainnet.g.alchemy.com/v2/" ++ key)%string ->
         is_connected url (node w) = (ok, n) ->
         init' None w
         = (if ok then inr url
            else inl (ConnectionError
                        ("Failed to connect to RPC: " ++ url)%string),
            mkWorld n (files w))).
Proof.
  split.
  - intros url ok n Hcon. apply init_connects; [reflexivity | exact Hcon].
  - intros key url ok n Hkey Hne -> Hcon.
    apply init_connects; [|exact Hcon].
    destruct Hkey as [H1|[H1 H2]].
    + apply choose_rpc_url_first; assumption.
    + apply choose_rpc_url_second; assumption.
Qed.

(** X15: what [main] does on a faulty command line.  With no argument
    after the program name it exits with status 1 and does nothing else,
    whatever the environment.  With an argument and no key in the
    environment it raises the [ValueError] of the constructor, also for
    [--batch] without a file.  With [--batch] and no file it exits with
    status 1 only after the scanner was built and has connected. *)
Theorem main_usage_errors (argv : list string) w :
  (List.length argv < 2 -> main' argv w = (inr (Exited 1), w))
  /\ (2 <= List.length argv ->
      truthy (getenv "RPC_API_KEY") = false ->
      truthy (getenv "ALCHEMY_API_KEY") = false ->
      main' argv w = (inl no_key_error, w))
  /\ (forall program scanner w1,
         argv = [program; "--batch"] ->
         init' None w = (inr scanner, w1) ->
         main' argv w = (inr (Exited 1), w1)).
Proof.
  split; [|split].
  - intros Hlen. unfold main. apply Nat.ltb_lt in Hlen. rewrite Hlen.
    reflexivity.
  - intros Hlen H1 H2. unfold main.
    replace (List.length argv <? 2) with false
      by (symmetry; apply Nat.ltb_ge; exact Hlen).
    unfold bind, init. rewrite (choose_rpc_url_no_key H1 H2). reflexivity.
  - intros program scanner w1 -> Hinit. unfold main, bind. cbn [List.length].
    change (2 <? 2) with false. cbv beta iota. rewrite Hinit. reflexivity.
Qed.

(** X16: the single-contract branch.  Once the scanner is built, [main]
    with a first argument other than [--batch] analyzes that argument as
    an address over the scanner's endpoint and returns, also when the
    analysis failed; further arguments are ignored and no file is
    written. *)
Theorem main_single_contract (program arg : string) (extra : list string)
        w scanner w1 :
  init' None w = (inr scanner, w1) ->
  String.eqb arg "--batch" = false ->
  exists result w2,
    analyze_contract to_checksum_address (get_code_at scanner) hexbytes_0x
      arg w1 = (inr result, w2)
    /\ main' (program :: arg :: extra) w = (inr (SingleDone result), w2)
    /\ result_address result = arg
    /\ files w2 = files w.
Proof.
  intros Hinit Harg.
  destruct (analyze_contract_returns Node to_checksum_address
              (get_code_at scanner) hexbytes_0x arg w1)
    as (result & w2 & Hrun & Haddr).
  exists result, w2. split; [exact Hrun|]. split; [|split].
  - unfold main, bind, argv_at. cbn [List.length nth].
    change (S (S (List.length extra)) <? 2) with false. cbv beta iota.
    rewrite Hinit, Harg, Hrun. reflexivity.
  - exact Haddr.
  - rewrite (analyze_contract_files _ _ _ _ _ _ _ _ Hrun).
    exact (init_files _ _ _ _ Hinit).
Qed.

Lemma filter_nonblank_nil (lines : list string) :
  (forall line, In line lines -> strip line = EmptyString) ->
  filter nonblank lines = [].
Proof.
  induction lines as [|l ls IH]; intros Hblank; [reflexivity|].
  simpl. rewrite (Hblank l (or_introl eq_refl)). simpl.
  apply IH. intros line Hin. apply Hblank. right. exact Hin.
Qed.

(** X17: how the batch branch fails.  Once the scanner is built, [main]
    with [--batch] and a file that cannot be opened raises the error of
    [open], and with a file all of whose lines are blank (or that has no
    line) it raises [ZeroDivisionError]; in both cases no address is
    analyzed and no file is written. *)
Theorem main_batch_file_failures (program path : string)
        (extra : list string) w scanner w1 :
  init' None w = (inr scanner, w1) ->
  (forall e, read_lines path = inl e ->
             main' (program :: "--batch" :: path :: extra) w = (inl e, w1))
  /\ (forall lines,
         read_lines path = inr lines ->
         (forall line, In line lines -> strip line = EmptyString) ->
         main' (program :: "--batch" :: path :: extra) w
         = (inl ZeroDivisionError, w1)).
Proof.
  intros Hinit. split.
  - intros e Hread. unfold main, bind, lift, argv_at, read_addresses.
    cbn [List.length nth]. change (S (S (S (List.length extra))) <? 2) with false.
    change (S (S (S (List.length extra))) <? 3) with false. cbv beta iota.
    rewrite Hinit. change ("--batch" =? "--batch")%string with true.
    cbv beta iota. rewrite Hread. reflexivity.
  - intros lines Hread Hblank.
    unfold main, bind, lift, argv_at, read_addresses.
    cbn [List.length nth]. change (S (S (S (List.length extra))) <? 2) with false.
    change (S (S (S (List.length extra))) <? 3) with false. cbv beta iota.
    rewrite Hinit. change ("--batch" =? "--batch")%string with true.
    cbv beta iota. rewrite Hread, (filter_nonblank_nil _ Hblank). reflexivity.
Qed.

(** X18: the batch branch from end to end.  Once the scanner is built,
    [main] with [--batch] and a file with at least one line that is not
    blank returns the summary; its [total] is the number of such lines,
    and the file [eip1153_scan_results.json] then holds one result per
    such line, in the order of the lines, each under the stripped line as
    its address. *)
Theorem main_batch_file_runs (program path : string) (extra : list string)
        w scanner w1 lines :
  init' None w = (inr scanner, w1) ->
  read_lines path = inr lines ->
  (exists line, In line lines /\ strip line <> EmptyString) ->
  exists summary results w2,
    main' (program :: "--batch" :: path :: extra) w
    = (inr (BatchDone summary), w2)
    /\ total summary = Z.of_nat (List.length (filter nonblank lines))
    /\ files w2 = ("eip1153_scan_results.json", results) :: files w
    /\ map result_address results = map strip (filter nonblank lines).
Proof.
  intros Hinit Hread (line & Hin & Hline).
  assert (Hne : map strip (filter nonblank lines) <> []).
  { assert (Hf : In line (filter nonblank lines)).
    { apply filter_In. split; [exact Hin|]. apply truthy_key, Hline. }
    destruct (filter nonblank lines); [destruct Hf | discriminate]. }
  destruct (main_batch_runs Node to_checksum_address (get_code_at scanner)
              hexbytes_0x _ w1 Hne)
    as (summary & results & w2 & _ & Hmain & Hm & Ht).
  exists summary, results. eexists. split; [|split; [|split]].
  - unfold main, bind, lift, argv_at, read_addresses.
    cbn [List.length nth]. change (S (S (S (List.length extra))) <? 2) with false.
    change (S (S (S (List.length extra))) <? 3) with false. cbv beta iota.
    rewrite Hinit. change ("--batch" =? "--batch")%string with true.
    cbv beta iota. rewrite Hread, Hmain. reflexivity.
  - rewrite Ht, length_map. reflexivity.
  - cbn [files]. rewrite (init_files _ _ _ _ Hinit). reflexivity.
  - exact Hm.
Qed.

End CommandLineFacts.

(** ** The further facts over the canned endpoint *)

Lemma empty_code_size_follows_rendering_witness :
  Canned.to_checksum_address "0xE" = inr "0xE"
  /\ Canned.get_code Canned.chain "0xE" 0 = (inr [], 1)
  /\ canned_fetch true "0xE" Canned.start = (inr "0x", mkWorld 1 [])
  /\ exists result,
       canned_analyze true "0xE" Canned.start = (inr result, mkWorld 1 [])
       /\ result = Analyzed "0xE" 1 0 0 false
       /\ success result = true.
Proof.
  split; [reflexivity|]. split; [reflexivity|]. split; [reflexivity|].
  exact (empty_code_size_follows_rendering nat Canned.to_checksum_address
           (Canned.get_code Canned.chain) true "0xE" Canned.start "0xE" 1
           eq_refl eq_refl).
Defined.

Lemma analysis_of_deployed_code_witness :
  Canned.to_checksum_address "0xC" = inr "0xC"
  /\ Canned.get_code Canned.chain "0xC" 0 = (inr [x60; x5d], 1)
  /\ canned_analyze true "C" Canned.start
     = (inr (Analyzed "C" 3 1 0 true), mkWorld 1 []).
Proof.
  split; [reflexivity|]. split; [reflexivity|].
  exact (analysis_of_deployed_code nat Canned.to_checksum_address
           (Canned.get_code Canned.chain) true "C" Canned.start "0xC"
           [x60; x5d] 1 eq_refl eq_refl).
Defined.

Lemma rejected_address_is_not_requested_witness :
  CannedCli.to_checksum_address "0xnot-an-address"
  = inl (ValueError "invalid address")
  /\ cli_analyze "not-an-address" Canned.start
     = (inr (Failed "not-an-address" "invalid address"), Canned.start).
Proof.
  split; [reflexivity|].
  exact (rejected_address_is_not_requested nat CannedCli.to_checksum_address
           (CannedCli.get_code_at CannedCli.url) false "not-an-address"
           Canned.start (ValueError "invalid address") eq_refl).
Defined.

Lemma address_prefix_is_optional_witness :
  PyStr.startswith "A" "0x" = false
  /\ canned_fetch false "0xA" Canned.start
     = canned_fetch false "A" Canned.start.
Proof.
  split; [reflexivity|].
  exact (proj1 (address_prefix_is_optional nat Canned.to_checksum_address
                  (Canned.get_code Canned.chain) false "A" Canned.start
                  eq_refl)).
Defined.

Lemma counts_within_bytecode_size_witness :
  canned_analyze false "0xA" Canned.start
  = (inr (Analyzed "0xA" 3 3 0 true), mkWorld 1 [])
  /\ exists size tstore_count tload_count,
       get_bytecode_size (Analyzed "0xA" 3 3 0 true) = Some size
       /\ get_tstore_count (Analyzed "0xA" 3 3 0 true) = Some tstore_count
       /\ get_tload_count (Analyzed "0xA" 3 3 0 true) = Some tload_count
       /\ tstore_count + tload_count <= size.
Proof.
  split; [reflexivity|].
  exact (counts_within_bytecode_size nat Canned.to_checksum_address
           (Canned.get_code Canned.chain) false "0xA" Canned.start
           (Analyzed "0xA" 3 3 0 true) (mkWorld 1 []) eq_refl eq_refl).
Defined.

Lemma present_opcode_byte_is_flagged_witness :
  canned_fetch true "0xC" Canned.start
  = (inr (HexBytes_hex true [x60; x5d]), mkWorld 1 [])
  /\ (In x5d [x60; x5d] \/ In x5c [x60; x5d])
  /\ exists size tstore_count tload_count,
       canned_analyze true "0xC" Canned.start
       = (inr (Analyzed "0xC" size tstore_count tload_count true),
          mkWorld 1 [])
       /\ (In x5d [x60; x5d] -> 0 < tstore_count)
       /\ (In x5c [x60; x5d] -> 0 < tload_count).
Proof.
  assert (Hin : In x5d [x60; x5d] \/ In x5c [x60; x5d])
    by (left; right; left; reflexivity).
  split; [reflexivity|]. split; [exact Hin|].
  exact (present_opcode_byte_is_flagged nat Canned.to_checksum_address
           (Canned.get_code Canned.chain) true "0xC" Canned.start
           [x60; x5d] (mkWorld 1 []) eq_refl Hin).
Defined.

Lemma main_batch_exports_results_witness :
  canned_main false ["0xA"; "0xB"] Canned.start
  = (inr (mkSummary 2 1 1 (Qmake 1 1 / Qmake 2 1 * 100)),
     mkWorld 2
       [("eip1153_scan_results.json",
         [Analyzed "0xA" 3 3 0 true; Failed "0xB" "request failed"])])
  /\ exists results,
       [("eip1153_scan_results.json",
         [Analyzed "0xA" 3 3 0 true; Failed "0xB" "request failed"])]
       = [("eip1153_scan_results.json", results)]
       /\ canned_batch false ["0xA"; "0xB"] Canned.start
          = (inr results, mkWorld 2 [])
       /\ map result_address results = ["0xA"; "0xB"]
       /\ summarize results
          = inr (mkSummary 2 1 1 (Qmake 1 1 / Qmake 2 1 * 100)).
Proof.
  split; [reflexivity|].
  exact (main_batch_exports_results nat Canned.to_checksum_address
           (Canned.get_code Canned.chain) false ["0xA"; "0xB"] Canned.start
           (mkSummary 2 1 1 (Qmake 1 1 / Qmake 2 1 * 100))
           (mkWorld 2
              [("eip1153_scan_results.json",
                [Analyzed "0xA" 3 3 0 true; Failed "0xB" "request failed"])])
           eq_refl).
Defined.

Lemma init_requires_key_witness :
  truthy (CannedCli.no_key "RPC_API_KEY") = false
  /\ truthy (CannedCli.no_key "ALCHEMY_API_KEY") = false
  /\ init CannedCli.no_key CannedCli.is_connected None Canned.start
     = (inl (ValueError "RPC_API_KEY environment variable not set"),
        Canned.start).
Proof.
  split; [reflexivity|]. split; [reflexivity|].
  exact (proj1 (init_requires_key nat CannedCli.no_key
                  CannedCli.is_connected Canned.start) eq_refl eq_refl).
Defined.

Lemma init_connects_to_chosen_url_witness :
  (truthy (CannedCli.getenv "RPC_API_KEY") = false
   /\ CannedCli.getenv "ALCHEMY_API_KEY" = Some "k3y")
  /\ "k3y" <> EmptyString
  /\ CannedCli.is_connected CannedCli.url 0 = (true, 1)
  /\ cli_init None Canned.start = (inr CannedCli.url, mkWorld 1 []).
Proof.
  assert (Hkey : truthy (CannedCli.getenv "RPC_API_KEY") = false
                 /\ CannedCli.getenv "ALCHEMY_API_KEY" = Some "k3y")
    by (split; reflexivity).
  assert (Hne : "k3y" <> EmptyString) by discriminate.
  split; [exact Hkey|]. split; [exact Hne|]. split; [reflexivity|].
  exact (proj2 (init_connects_to_chosen_url nat CannedCli.getenv
                  CannedCli.is_connected Canned.start)
           "k3y" CannedCli.url true 1 (or_intror Hkey) Hne eq_refl eq_refl).
Defined.

Lemma main_usage_errors_witness :
  (List.length ["scanner.py"] < 2
   /\ cli_main ["scanner.py"] Canned.start = (inr (Exited 1), Canned.start))
  /\ (2 <= List.length ["scanner.py"; "--batch"]
      /\ main CannedCli.no_key CannedCli.is_connected
           CannedCli.to_checksum_address CannedCli.get_code_at false
           CannedCli.read_lines CannedCli.strip ["scanner.py"; "--batch"]
           Canned.start
         = (inl (ValueError "RPC_API_KEY environment variable not set"),
            Canned.start))
  /\ (cli_init None Canned.start = (inr CannedCli.url, mkWorld 1 [])
      /\ cli_main ["scanner.py"; "--batch"] Canned.start
         = (inr (Exited 1), mkWorld 1 [])).
Proof.
  assert (Hlen : List.length ["scanner.py"] < 2) by (simpl; lia).
  assert (Hlen2 : 2 <= List.length ["scanner.py"; "--batch"])
    by (simpl; lia).
  split; [|split];
    (split; [first [exact Hlen | exact Hlen2 | reflexivity]|]).
  - exact (proj1 (main_usage_errors nat CannedCli.getenv
                    CannedCli.is_connected CannedCli.to_checksum_address
                    CannedCli.get_code_at false CannedCli.read_lines
                    CannedCli.strip ["scanner.py"] Canned.start) Hlen).
  - exact (proj1 (proj2 (main_usage_errors nat CannedCli.no_key
                    CannedCli.is_connected CannedCli.to_checksum_address
                    CannedCli.get_code_at false CannedCli.read_lines
                    CannedCli.strip ["scanner.py"; "--batch"] Canned.start))
             Hlen2 eq_refl eq_refl).
  - exact (proj2 (proj2 (main_usage_errors nat CannedCli.getenv
                    CannedCli.is_connected CannedCli.to_checksum_address
                    CannedCli.get_code_at false CannedCli.read_lines
                    CannedCli.strip ["scanner.py"; "--batch"] Canned.start))
             "scanner.py" CannedCli.url (mkWorld 1 []) eq_refl eq_refl).
Defined.

Lemma main_single_contract_witness :
  cli_init None Canned.start = (inr CannedCli.url, mkWorld 1 [])
  /\ String.eqb "0xB" "--batch" = false
  /\ exists result w2,
       cli_analyze "0xB" (mkWorld 1 []) = (inr result, w2)
       /\ cli_main ["scanner.py"; "0xB"; "ignored"] Canned.start
          = (inr (SingleDone result), w2)
       /\ result_address result = "0xB"
       /\ files w2 = files Canned.start.
Proof.
  split; [reflexivity|]. split; [reflexivity|].
  exact (main_single_contract nat CannedCli.getenv CannedCli.is_connected
           CannedCli.to_checksum_address CannedCli.get_code_at false
           CannedCli.read_lines CannedCli.strip "scanner.py" "0xB"
           ["ignored"] Canned.start CannedCli.url (mkWorld 1 [])
           eq_refl eq_refl).
Defined.

Lemma main_batch_file_failures_witness :
  cli_init None Canned.start = (inr CannedCli.url, mkWorld 1 [])
  /\ (CannedCli.read_lines "missing.txt"
      = inl (mkException "FileNotFoundError" "No such file or directory")
      /\ cli_main ["scanner.py"; "--batch"; "missing.txt"] Canned.start
         = (inl (mkException "FileNotFoundError"
                   "No such file or directory"), mkWorld 1 []))
  /\ (CannedCli.read_lines "blank.txt"
      = inr [CannedCli.newline; ("  " ++ CannedCli.newline)%string]
      /\ (forall line,
             In line [CannedCli.newline; ("  " ++ CannedCli.newline)%string] ->
             CannedCli.strip line = EmptyString)
      /\ cli_main ["scanner.py"; "--batch"; "blank.txt"] Canned.start
         = (inl ZeroDivisionError, mkWorld 1 [])).
Proof.
  assert (Hblank : forall line,
             In line [CannedCli.newline; ("  " ++ CannedCli.newline)%string] ->
             CannedCli.strip line = EmptyString).
  { intros line [<-|[<-|[]]]; reflexivity. }
  split; [reflexivity|]. split; (split; [reflexivity|]).
  - exact (proj1 (main_batch_file_failures nat CannedCli.getenv
                    CannedCli.is_connected CannedCli.to_checksum_address
                    CannedCli.get_code_at false CannedCli.read_lines
                    CannedCli.strip "scanner.py" "missing.txt" []
                    Canned.start CannedCli.url (mkWorld 1 []) eq_refl)
             _ eq_refl).
  - split; [exact Hblank|].
    exact (proj2 (main_batch_file_failures nat CannedCli.getenv
                    CannedCli.is_connected CannedCli.to_checksum_address
                    CannedCli.get_code_at false CannedCli.read_lines
                    CannedCli.strip "scanner.py" "blank.txt" []
                    Canned.start CannedCli.url (mkWorld 1 []) eq_refl)
             _ eq_refl Hblank).
Defined.

Lemma main_batch_file_runs_witness :
  cli_init None Canned.start = (inr CannedCli.url, mkWorld 1 [])
  /\ (exists line,
         In line [("0xA" ++ CannedCli.newline)%string; CannedCli.newline;
                  (" B " ++ CannedCli.newline)%string; "0xC"]
         /\ CannedCli.strip line <> EmptyString)
  /\ exists summary results w2,
       cli_main ["scanner.py"; "--batch"; "contracts.txt"] Canned.start
       = (inr (BatchDone summary), w2)
       /\ total summary = 3%Z
       /\ files w2 = [("eip1153_scan_results.json", results)]
       /\ map result_address results = ["0xA"; "B"; "0xC"].
Proof.
  assert (Hline : exists line,
             In line [("0xA" ++ CannedCli.newline)%string; CannedCli.newline;
                      (" B " ++ CannedCli.newline)%string; "0xC"]
             /\ CannedCli.strip line <> EmptyString).
  { exists "0xC". split; [simpl; auto | discriminate]. }
  split; [reflexivity|]. split; [exact Hline|].
  exact (main_batch_file_runs nat CannedCli.getenv CannedCli.is_connected
           CannedCli.to_checksum_address CannedCli.get_code_at false
           CannedCli.read_lines CannedCli.strip "scanner.py" "contracts.txt"
           [] Canned.start CannedCli.url (mkWorld 1 []) _ eq_refl eq_refl
           Hline).
Defined.
